(** * colored_term: ANSI colouring of terminal text

    A shallow embedding of [src/color/colored_term.py] (classes [ANSIColor]
    and [ColorTerm]) and the properties of its string transformations.

    Conventions of the embedding:
    - a Python [str] is a list of Unicode code points ([N]); [for char in
      text] walks that list, [len] is [length], [+] is [++]; every list
      is taken as a string, whatever the numbers in it;
    - a Python [dict] is an association list in insertion order, as
      iteration over a dict follows it;
    - a Python [float] is an IEEE-754 binary64 value, [spec_float] of the
      Standard Library with [prec = 53] and [emax = 1024];
    - a method of [ColorTerm] is a computation over the instance's two
      fields that may raise; what was assigned before a [raise] stays. *)

From Stdlib Require Import ZArith NArith List Bool Lia String Ascii.
From Stdlib Require Import Floats.SpecFloat.
Import ListNotations.

Local Open Scope Z_scope.

(* ================================================================== *)
(** * Python values *)

Module Py.

(** ** Strings *)

Definition char := N.
Definition str := list char.

Definition chr (a : ascii) : char := N_of_ascii a.

(** An ASCII literal of the source, as a [str]. *)
Definition lit (s : string) : str := List.map chr (list_ascii_of_string s).

Definition char_eqb (a b : char) : bool := N.eqb a b.

Fixpoint str_eqb (a b : str) : bool :=
  match a, b with
  | [], [] => true
  | x :: a', y :: b' => char_eqb x y && str_eqb a' b'
  | _, _ => false
  end.

(** [s * n]: the empty string when [n <= 0]. *)
Definition str_repeat (s : str) (n : Z) : str :=
  List.concat (List.repeat s (Z.to_nat n)).

(** ** Exceptions and results *)

Inductive exn := ZeroDivisionError | KeyError | OverflowError | ValueError.

Inductive result (A : Type) :=
  | Ok (a : A)
  | Raise (e : exn).
Arguments Ok {A} a.
Arguments Raise {A} e.

Definition rbind {A B} (r : result A) (k : A -> result B) : result B :=
  match r with
  | Ok a => k a
  | Raise e => Raise e
  end.

(** ** Dictionaries with [str] keys and [int] values *)

Definition dict := list (str * Z).

Definition keys (d : dict) : list str := List.map fst d.
Definition values (d : dict) : list Z := List.map snd d.

(** [d[k]] *)
Fixpoint dict_get (d : dict) (k : str) : result Z :=
  match d with
  | [] => Raise KeyError
  | (k', v) :: d' => if str_eqb k' k then Ok v else dict_get d' k
  end.

(** [d[k] = v]: an existing key keeps its place, a new one goes last. *)
Fixpoint dict_set (d : dict) (k : str) (v : Z) : dict :=
  match d with
  | [] => [(k, v)]
  | (k', v') :: d' =>
      if str_eqb k' k then (k', v) :: d' else (k', v') :: dict_set d' k v
  end.

(** The display [{k1: v1, ..., kn: vn}]: the items are stored left to right. *)
Definition dict_display (items : list (str * Z)) : dict :=
  List.fold_left (fun d kv => dict_set d (fst kv) (snd kv)) items [].

(** [d[k] += 1] *)
Definition dict_incr (d : dict) (k : str) : result dict :=
  rbind (dict_get d k) (fun v => Ok (dict_set d k (v + 1))).

(** [sum(xs)]: starts from [0] and adds from the left. *)
Definition sum (xs : list Z) : Z := List.fold_left Z.add xs 0.

(** ** Floats *)

Definition prec : Z := 53.
Definition emax : Z := 1024.

Definition float := spec_float.

(** An [int] as the exact dyadic [n * 2^0] (not yet rounded). *)
Definition exact_of_int (n : Z) : float :=
  match n with
  | Z0 => S754_zero false
  | Zpos p => S754_finite false p 0
  | Zneg p => S754_finite true p 0
  end.

(** [float(n)], for an [n] that a double can hold. *)
Definition float_of_int (n : Z) : float := binary_normalize prec emax n 0 false.

(** [a / b] on two [int]s: the quotient of the integers rounded once, to
    nearest even.  For operands below [2^53] this is the division of the two
    converted doubles. *)
Definition int_truediv (a b : Z) : result float :=
  if b =? 0 then Raise ZeroDivisionError
  else match SFdiv prec emax (exact_of_int a) (exact_of_int b) with
       | S754_infinity _ => Raise OverflowError
       | q => Ok q
       end.

(** [x * n] with [x] a [float] and [n] an [int]. *)
Definition float_mul_int (x : float) (n : Z) : float :=
  SFmul prec emax x (float_of_int n).

(** [int(x)]: truncation towards zero. *)
Definition int_of_float (x : float) : result Z :=
  match x with
  | S754_zero _ => Ok 0
  | S754_finite s m e =>
      let v := if 0 <=? e then Z.pos m * 2 ^ e else Z.pos m / 2 ^ (- e) in
      Ok (if s then - v else v)
  | S754_infinity _ => Raise OverflowError
  | S754_nan => Raise ValueError
  end.

(** [x] is a zero or a finite number, of sign [s] and below [2^B]. *)
Definition fin_below (s : bool) (B : Z) (x : float) : Prop :=
  x = S754_zero s
  \/ exists m e, x = S754_finite s m e /\ Zdigits2 (Z.pos m) + e <= B.

(** [x] is a zero or a finite number, of sign [s] and at most [A * 2^a]. *)
Definition at_most (s : bool) (A a : Z) (x : float) : Prop :=
  x = S754_zero s
  \/ exists m e, x = S754_finite s m e /\ e <= a /\ Z.pos m <= A * 2 ^ (a - e).

End Py.

Import Py.

(* ================================================================== *)
(** * class ANSIColor *)

Module ANSIColor.

Definition ESC : char := 27%N.    (* '\033' *)

Definition RED : str := ESC :: lit "[31m".
Definition GREEN : str := ESC :: lit "[32m".
Definition YELLOW : str := ESC :: lit "[33m".
Definition BLUE : str := ESC :: lit "[34m".
Definition MAGENTA : str := ESC :: lit "[35m".
Definition CYAN : str := ESC :: lit "[36m".
Definition RESET : str := ESC :: lit "[0m".

(** The names of the seven class attributes, and the value each is bound to. *)
Inductive Color := Red | Green | Yellow | Blue | Magenta | Cyan | Reset.

Definition escape (k : Color) : str :=
  match k with
  | Red => RED
  | Green => GREEN
  | Yellow => YELLOW
  | Blue => BLUE
  | Magenta => MAGENTA
  | Cyan => CYAN
  | Reset => RESET
  end.

Definition Color_eqb (a b : Color) : bool :=
  match a, b with
  | Red, Red | Green, Green | Yellow, Yellow | Blue, Blue
  | Magenta, Magenta | Cyan, Cyan | Reset, Reset => true
  | _, _ => false
  end.

End ANSIColor.

Import ANSIColor.

(* ================================================================== *)
(** * class ColorTerm *)

Module ColorTerm.

Record t := mk { enabled : bool; color_stats : str }.

(** A method body: runs on the instance, returns or raises, and leaves
    the instance as it is at that point. *)
Definition M (A : Type) := t -> result A * t.

Definition ret {A} (a : A) : M A := fun self => (Ok a, self).
Definition bind {A B} (m : M A) (k : A -> M B) : M B :=
  fun self =>
    match m self with
    | (Ok a, self') => k a self'
    | (Raise e, self') => (Raise e, self')
    end.
Definition lift {A} (r : result A) : M A := fun self => (r, self).

Declare Scope py_scope.
Delimit Scope py_scope with py.
Notation "x <- m ;; k" := (bind m (fun x => k))
  (at level 61, m at next level, right associativity) : py_scope.
Notation "m ;;; k" := (bind m (fun _ => k))
  (at level 61, right associativity) : py_scope.
Local Open Scope py_scope.

Definition get_color_stats : M str := fun self => (Ok (color_stats self), self).
Definition set_color_stats (s : str) : M unit :=
  fun self => (Ok tt, mk (enabled self) s).
Definition get_enabled : M bool := fun self => (Ok (enabled self), self).

(** [__init__] (the VT100 activation has no effect on the fields). *)
Definition init : t := mk false [].


(** [colored_string], a static method. *)
Definition colored_string (text color : str) : str :=
  (color ++ text) ++ RESET.

Definition NL : char := 10%N.           (* '\n' *)
Definition SPACE : char := chr " ".
Definition FULL_BLOCK : char := 9608%N. (* U+2588 *)

Definition stats_header : str :=
  [NL; NL] ++ lit "-------------------" ++ [NL]
    ++ lit "Color distribution in ASCII image:" ++ [NL].

(** [int(colors_used[color]/total*50)] *)
Definition bar_length (count total : Z) : result Z :=
  rbind (int_truediv count total) (fun q => int_of_float (float_mul_int q 50)).

(** One round of the loop of [build_color_stats]. *)
Definition add_bar (colors_used : dict) (total : Z) (color : str) : M unit :=
  old <- get_color_stats ;;
  count <- lift (dict_get colors_used color) ;;
  n <- lift (bar_length count total) ;;
  set_color_stats
    (old ++ colored_string ([NL] ++ str_repeat [FULL_BLOCK] n) color).

Fixpoint for_each {A} (xs : list A) (body : A -> M unit) : M unit :=
  match xs with
  | [] => ret tt
  | x :: xs' => body x ;;; for_each xs' body
  end.

Definition build_color_stats (colors_used : dict) : M unit :=
  let total := sum (values colors_used) in
  set_color_stats stats_header ;;;
  for_each (keys colors_used) (add_bar colors_used total).

(** The [dict] display that opens [ascii_color_chars]. *)
Definition colors_used_init : dict :=
  dict_display
    [(BLUE, 0); (RED, 0); (GREEN, 0); (MAGENTA, 0); (CYAN, 0); (RESET, 0)].

(** One round of the loop of [ascii_color_chars], on the two locals
    [colored_text] and [colors_used]. *)
Definition scan_char (c : char) (acc : str * dict) : result (str * dict) :=
  let '(colored_text, colors_used) := acc in
  if char_eqb c (chr "3") then
    rbind (dict_incr colors_used BLUE)
      (fun d => Ok (colored_text ++ (BLUE ++ [c]) ++ RESET, d))
  else if char_eqb c (chr "&") then
    rbind (dict_incr colors_used RED)
      (fun d => Ok (colored_text ++ (RED ++ [c]) ++ RESET, d))
  else if char_eqb c (chr "=") then
    rbind (dict_incr colors_used GREEN)
      (fun d => Ok (colored_text ++ (GREEN ++ [c]) ++ RESET, d))
  else if char_eqb c (chr "+") || char_eqb c (chr "*") then
    rbind (dict_incr colors_used MAGENTA)
      (fun d => Ok (colored_text ++ (MAGENTA ++ [c]) ++ RESET, d))
  else if char_eqb c (chr "#") || char_eqb c (chr "?") then
    rbind (dict_incr colors_used CYAN)
      (fun d => Ok (colored_text ++ (CYAN ++ [c]) ++ RESET, d))
  else
    let colored_text := colored_text ++ [c] in
    if negb (char_eqb c SPACE) then
      rbind (dict_incr colors_used RESET) (fun d => Ok (colored_text, d))
    else Ok (colored_text, colors_used).

Fixpoint scan (text : str) (acc : str * dict) : result (str * dict) :=
  match text with
  | [] => Ok acc
  | c :: text' => rbind (scan_char c acc) (scan text')
  end.

Definition ascii_color_chars (text : str) : M str :=
  en <- get_enabled ;;
  if en then
    acc <- lift (scan text ([], colors_used_init)) ;;
    build_color_stats (snd acc) ;;;
    ret (fst acc)
  else ret text.

Definition warning (text : str) : M str := ret ((YELLOW ++ text) ++ RESET).
Definition error (text : str) : M str := ret ((RED ++ text) ++ RESET).
Definition info (text : str) : M str := ret ((CYAN ++ text) ++ RESET).
Definition success (text : str) : M str := ret ((GREEN ++ text) ++ RESET).

End ColorTerm.

Import ColorTerm.

(* ================================================================== *)
(** * The scan, character by character

    The classification the scan is meant to implement, written per
    character and independently of the loop: which colour a character is
    painted with, which bucket of the histogram it is counted in. *)

Module Rule.

Inductive class :=
  | Painted (k : Color)   (* wrapped in the colour, counted under it *)
  | Blank                 (* the space: passed through, not counted *)
  | Plain.                (* passed through, counted under Reset *)

(** First match wins, in this order. *)
Definition classify (c : char) : class :=
  if char_eqb c (chr "3") then Painted Blue
  else if char_eqb c (chr "&") then Painted Red
  else if char_eqb c (chr "=") then Painted Green
  else if char_eqb c (chr "+") then Painted Magenta
  else if char_eqb c (chr "*") then Painted Magenta
  else if char_eqb c (chr "#") then Painted Cyan
  else if char_eqb c (chr "?") then Painted Cyan
  else if char_eqb c (chr " ") then Blank
  else Plain.

(** What one character contributes to the output. *)
Definition rendered (c : char) : str :=
  match classify c with
  | Painted k => escape k ++ [c] ++ escape Reset
  | Blank | Plain => [c]
  end.

(** The bucket one character is counted in, if any. *)
Definition bucket (c : char) : option Color :=
  match classify c with
  | Painted k => Some k
  | Blank => None
  | Plain => Some Reset
  end.

Definition hit (k : Color) (c : char) : Z :=
  match bucket c with
  | Some k' => if Color_eqb k k' then 1 else 0
  | None => 0
  end.

(** How many characters of [text] are counted under [k]. *)
Fixpoint tally (k : Color) (text : str) : Z :=
  match text with
  | [] => 0
  | c :: text' => hit k c + tally k text'
  end.

(** The number of characters of [text] that are not a space. *)
Fixpoint ink (text : str) : Z :=
  match text with
  | [] => 0
  | c :: text' => (if char_eqb c SPACE then 0 else 1) + ink text'
  end.

Fixpoint spaces (text : str) : Z :=
  match text with
  | [] => 0
  | c :: text' => (if char_eqb c SPACE then 1 else 0) + spaces text'
  end.

(** [text.count(c)] *)
Definition occurrences (c : char) (text : str) : Z :=
  Z.of_nat (count_occ N.eq_dec text c).

End Rule.

Import Rule.

(** The six entries of [colors_used], in the order of the display. *)
Definition hist (b r g m c z : Z) : dict :=
  [(BLUE, b); (RED, r); (GREEN, g); (MAGENTA, m); (CYAN, c); (RESET, z)].

(** [colors_used] once [text] has been scanned. *)
Definition histogram (text : str) : dict :=
  hist (tally Blue text) (tally Red text) (tally Green text)
       (tally Magenta text) (tally Cyan text) (tally Reset text).

(* ================================================================== *)
(** * The distribution report, in closed form *)

(** The number of blocks of one bar, as [bar_length] evaluates it in
    binary64 arithmetic. *)
Definition bar (count total : Z) : Z :=
  match bar_length count total with
  | Ok n => n
  | Raise _ => 0
  end.

Definition blocks (n : Z) : str := List.repeat FULL_BLOCK (Z.to_nat n).

(** One entry of the report: colour, line break, bar, reset. *)
Definition report_entry (total : Z) (kv : str * Z) : str :=
  fst kv ++ [NL] ++ blocks (bar (snd kv) total) ++ RESET.

Definition report (d : dict) : str :=
  stats_header ++ List.flat_map (report_entry (sum (values d))) d.

(** The report as the specification words it: the seven colours in the
    order of the enumeration, each bar [floor(count / total * 50)] long in
    exact arithmetic. *)
Definition spec_bar (count total : Z) : Z := count * 50 / total.

Definition spec_report (count : Color -> Z) : str :=
  let total :=
    count Red + count Green + count Yellow + count Blue
    + count Magenta + count Cyan + count Reset in
  stats_header
    ++ List.flat_map
         (fun k => escape k ++ [NL] ++ blocks (spec_bar (count k) total)
                     ++ escape Reset)
         [Red; Green; Yellow; Blue; Magenta; Cyan; Reset].

(* ================================================================== *)
(** * Removing escape sequences *)

Module Strip.

Inductive state :=
  | Text                    (* outside a sequence *)
  | AfterEsc                (* an ESC was read *)
  | InCsi (pending : str).  (* ESC [ and parameters read so far *)

Definition is_param (c : char) : bool :=
  (N.leb (chr "0") c && N.leb c (chr "9")) || char_eqb c (chr ";").

(** Modelled from the spec: the repository has no function that removes
    escape sequences; the round-trip property speaks of one.  By the
    grammar of the external interface, [ESC [ <n> m], a sequence is [ESC],
    an opening bracket, any run of digits and semicolons, and the letter
    [m].  Anything else, an unfinished sequence included, is kept. *)
Fixpoint strip_from (st : state) (s : str) : str :=
  match s with
  | [] =>
      match st with
      | Text => []
      | AfterEsc => [ESC]
      | InCsi pending => pending
      end
  | c :: s' =>
      match st with
      | Text =>
          if char_eqb c ESC then strip_from AfterEsc s'
          else c :: strip_from Text s'
      | AfterEsc =>
          if char_eqb c (chr "[") then strip_from (InCsi [ESC; c]) s'
          else if char_eqb c ESC then ESC :: strip_from AfterEsc s'
          else ESC :: c :: strip_from Text s'
      | InCsi pending =>
          if is_param c then strip_from (InCsi (pending ++ [c])) s'
          else if char_eqb c (chr "m") then strip_from Text s'
          else if char_eqb c ESC then pending ++ strip_from AfterEsc s'
          else pending ++ c :: strip_from Text s'
      end
  end.

(** Modelled from the spec: removing all escape sequences of a string. *)
Definition strip_ansi (s : str) : str := strip_from Text s.

End Strip.

Import Strip.

(* ================================================================== *)
(** * Strings and dictionaries *)

Lemma char_eqb_eq (a b : char) : char_eqb a b = true <-> a = b.
Proof. apply N.eqb_eq. Qed.

Lemma char_eqb_refl (a : char) : char_eqb a a = true.
Proof. apply N.eqb_refl. Qed.

Lemma str_eqb_eq (a b : str) : str_eqb a b = true <-> a = b.
Proof.
  revert b; induction a as [|x a IH]; intros [|y b]; simpl;
    try (split; [discriminate | discriminate]); try tauto.
  rewrite andb_true_iff, char_eqb_eq, IH.
  split; [intros [-> ->]; reflexivity | intros H; inversion H; auto].
Qed.

Lemma str_eqb_refl (a : str) : str_eqb a a = true.
Proof. now apply str_eqb_eq. Qed.

Lemma str_eqb_neq (a b : str) : a <> b -> str_eqb a b = false.
Proof.
  intros H; destruct (str_eqb a b) eqn:E; [|reflexivity].
  now apply str_eqb_eq in E.
Qed.

(** In a dictionary every item is found under its own key. *)
Lemma dict_get_own (d : dict) :
  NoDup (keys d) ->
  Forall (fun kv => dict_get d (fst kv) = Ok (snd kv)) d.
Proof.
  induction d as [|[k v] d IH]; intros ND; [constructor|].
  inversion ND as [|? ? Hk ND']; subst.
  constructor.
  - simpl. now rewrite str_eqb_refl.
  - specialize (IH ND'). rewrite Forall_forall in *.
    intros [k2 v2] Hin. simpl.
    rewrite str_eqb_neq; [now apply (IH (k2, v2))|].
    intros ->. apply Hk. unfold keys. now apply (in_map fst _ (k2, v2)).
Qed.

Lemma fold_left_add_shift (xs : list Z) (a : Z) :
  fold_left Z.add xs a = a + fold_left Z.add xs 0.
Proof.
  revert a; induction xs as [|x xs IH]; intros a; simpl; [lia|].
  rewrite (IH (a + x)), (IH x). lia.
Qed.

Lemma sum_cons (x : Z) (xs : list Z) : sum (x :: xs) = x + sum xs.
Proof. unfold sum; simpl. now rewrite fold_left_add_shift. Qed.

Lemma sum_nonneg (xs : list Z) : Forall (Z.le 0) xs -> 0 <= sum xs.
Proof.
  induction 1 as [|x xs Hx _ IH]; [reflexivity|]. rewrite sum_cons. lia.
Qed.

(** Among non-negative counts none exceeds the total. *)
Lemma sum_bounds (xs : list Z) :
  Forall (Z.le 0) xs -> Forall (fun x => 0 <= x <= sum xs) xs.
Proof.
  induction 1 as [|x xs Hx Hxs IH]; constructor.
  - rewrite sum_cons. apply sum_nonneg in Hxs. lia.
  - apply (Forall_impl _ (P := fun y => 0 <= y <= sum xs)); [|exact IH].
    intros y Hy. rewrite sum_cons. lia.
Qed.

Lemma sum_hist (b r g m c z : Z) :
  sum (values (hist b r g m c z)) = b + r + g + m + c + z.
Proof. unfold sum; simpl. lia. Qed.

(* ================================================================== *)
(** * The loop of [ascii_color_chars] *)

Lemma colors_used_init_hist : colors_used_init = hist 0 0 0 0 0 0.
Proof. reflexivity. Qed.

Ltac by_char c :=
  match goal with
  | |- context [char_eqb c ?x] =>
      let E := fresh "E" in
      destruct (char_eqb c x) eqn:E;
      [apply char_eqb_eq in E; try subst c |]
  end.

(** One round of the loop appends what the rule says and counts where the
    rule says; the six entries stay in place. *)
Lemma scan_char_hist (c : char) (acc : str) (b r g m k z : Z) :
  scan_char c (acc, hist b r g m k z)
  = Ok (acc ++ rendered c,
        hist (b + hit Blue c) (r + hit Red c) (g + hit Green c)
             (m + hit Magenta c) (k + hit Cyan c) (z + hit Reset c)).
Proof.
  unfold scan_char, rendered, hit, bucket, classify, SPACE.
  repeat (by_char c; [cbn; rewrite ?Z.add_0_r; reflexivity|]).
  cbn. rewrite ?Z.add_0_r. reflexivity.
Qed.

Lemma scan_hist (text : str) : forall (acc : str) (b r g m k z : Z),
  scan text (acc, hist b r g m k z)
  = Ok (acc ++ flat_map rendered text,
        hist (b + tally Blue text) (r + tally Red text)
             (g + tally Green text) (m + tally Magenta text)
             (k + tally Cyan text) (z + tally Reset text)).
Proof.
  induction text as [|c text IH]; intros acc b r g m k z.
  - cbn [scan flat_map tally]. now rewrite app_nil_r, !Z.add_0_r.
  - cbn [scan flat_map tally]. rewrite scan_char_hist. cbn [rbind].
    rewrite IH, <- app_assoc, !Z.add_assoc. reflexivity.
Qed.

Lemma scan_init (text : str) :
  scan text ([], colors_used_init)
  = Ok (flat_map rendered text, histogram text).
Proof. rewrite colors_used_init_hist, scan_hist. reflexivity. Qed.

(** ** Counting *)

Lemma hit_range (k : Color) (c : char) : 0 <= hit k c <= 1.
Proof.
  unfold hit. destruct (bucket c) as [k'|]; [|lia].
  destruct (Color_eqb k k'); lia.
Qed.

Lemma tally_nonneg (k : Color) (text : str) : 0 <= tally k text.
Proof.
  induction text as [|c text IH]; simpl; [lia|].
  pose proof (hit_range k c). lia.
Qed.

(** Every character but the space is counted once, in one of the six
    entries; nothing is counted under Yellow. *)
Lemma hit_total (c : char) :
  hit Blue c + hit Red c + hit Green c + hit Magenta c + hit Cyan c
  + hit Reset c = (if char_eqb c SPACE then 0 else 1)
  /\ hit Yellow c = 0.
Proof.
  unfold hit, bucket, classify, SPACE.
  repeat (by_char c; [split; reflexivity|]).
  split; reflexivity.
Qed.

Lemma tally_total (text : str) :
  tally Blue text + tally Red text + tally Green text + tally Magenta text
  + tally Cyan text + tally Reset text = ink text.
Proof.
  induction text as [|c text IH]; simpl; [reflexivity|].
  destruct (hit_total c) as [H _]. lia.
Qed.

Lemma tally_Yellow (text : str) : tally Yellow text = 0.
Proof.
  induction text as [|c text IH]; simpl; [reflexivity|].
  destruct (hit_total c) as [_ H]. lia.
Qed.

Lemma ink_spaces (text : str) :
  ink text = Z.of_nat (List.length text) - spaces text.
Proof.
  induction text as [|c text IH]; [reflexivity|].
  cbn [ink spaces List.length]. destruct (char_eqb c SPACE); lia.
Qed.

Lemma ink_nonneg (text : str) : 0 <= ink text.
Proof. rewrite <- tally_total. pose proof (tally_nonneg Blue text).
  pose proof (tally_nonneg Red text). pose proof (tally_nonneg Green text).
  pose proof (tally_nonneg Magenta text). pose proof (tally_nonneg Cyan text).
  pose proof (tally_nonneg Reset text). lia.
Qed.

Lemma sum_histogram (text : str) : sum (values (histogram text)) = ink text.
Proof. unfold histogram. now rewrite sum_hist, tally_total. Qed.

Lemma ink_pos_iff (text : str) :
  0 < ink text <-> exists c, In c text /\ c <> SPACE.
Proof.
  induction text as [|c text IH]; simpl.
  - split; [lia | intros (c & [] & _)].
  - pose proof (ink_nonneg text). destruct (char_eqb c SPACE) eqn:E.
    + apply char_eqb_eq in E. rewrite Z.add_0_l, IH.
      split; [intros (x & Hx & Hn); eauto|].
      intros (x & [Hx|Hx] & Hn); [congruence | eauto].
    + split; [|lia]. intros _. exists c. split; [now left|].
      intros ->. now rewrite char_eqb_refl in E.
Qed.

(* ================================================================== *)
(** * Binary64 arithmetic: the bar length never overflows

    [int(count/total*50)] raises on an infinite or undefined product.  The
    lemmas below bound the magnitude [digits + exponent] of a rounded
    result, which shows that for [0 <= count <= total] the quotient is at
    most about one, the product at most about fifty, and both finite. *)

Lemma digits2_pos_bounds (p : positive) :
  2 ^ (Z.pos (digits2_pos p) - 1) <= Z.pos p < 2 ^ Z.pos (digits2_pos p).
Proof.
  induction p as [p IH|p IH|]; cbn [digits2_pos]; [| |simpl; lia];
    rewrite Pos2Z.inj_succ;
    replace (Z.succ (Z.pos (digits2_pos p)) - 1)
      with (Z.succ (Z.pos (digits2_pos p) - 1)) by lia;
    rewrite !Z.pow_succ_r by lia; lia.
Qed.

Lemma Zdigits2_nonneg (m : Z) : 0 <= Zdigits2 m.
Proof. destruct m; simpl; lia. Qed.

Lemma Zdigits2_lt_pow (m : Z) : 0 <= m -> m < 2 ^ Zdigits2 m.
Proof.
  destruct m as [|p|p]; simpl; intros H; [lia| |lia].
  apply digits2_pos_bounds.
Qed.

Lemma Zdigits2_le (m k : Z) : 0 <= m < 2 ^ k -> 0 <= k -> Zdigits2 m <= k.
Proof.
  destruct m as [|p|p]; simpl; intros H Hk; [lia| |lia].
  pose proof (digits2_pos_bounds p) as Hp.
  assert (2 ^ (Z.pos (digits2_pos p) - 1) < 2 ^ k) as Hlt by lia.
  apply Z.pow_lt_mono_r_iff in Hlt; lia.
Qed.

Lemma Zdigits2_mono (a b : Z) : 0 <= a <= b -> Zdigits2 a <= Zdigits2 b.
Proof.
  intros H. apply Zdigits2_le; [|apply Zdigits2_nonneg].
  pose proof (Zdigits2_lt_pow b). lia.
Qed.

Lemma Zdigits2_succ (m : Z) : 0 <= m -> Zdigits2 (m + 1) <= Zdigits2 m + 1.
Proof.
  intros H. pose proof (Zdigits2_nonneg m). pose proof (Zdigits2_lt_pow m H).
  apply Zdigits2_le; [|lia]. rewrite Z.pow_add_r by lia. lia.
Qed.

Lemma Zdigits2_mul (a b : positive) :
  Zdigits2 (Z.pos (a * b)) <= Zdigits2 (Z.pos a) + Zdigits2 (Z.pos b).
Proof.
  pose proof (Zdigits2_nonneg (Z.pos a)). pose proof (Zdigits2_nonneg (Z.pos b)).
  pose proof (Zdigits2_lt_pow (Z.pos a)). pose proof (Zdigits2_lt_pow (Z.pos b)).
  apply Zdigits2_le; [|lia]. rewrite Z.pow_add_r, Pos2Z.inj_mul by lia. nia.
Qed.

(** ** Shifting right *)

Lemma shr_1_digits (mrs : shr_record) :
  0 <= shr_m mrs ->
  0 <= shr_m (shr_1 mrs)
  /\ Zdigits2 (shr_m (shr_1 mrs)) = Z.max 0 (Zdigits2 (shr_m mrs) - 1).
Proof.
  destruct mrs as [m r s]; destruct m as [|[p|p|]|p];
    cbn [shr_1 shr_m Zdigits2 digits2_pos]; intros H;
    rewrite ?Pos2Z.inj_succ; lia.
Qed.

Lemma shr_iter_digits (n : positive) : forall mrs : shr_record,
  0 <= shr_m mrs ->
  0 <= shr_m (iter_pos shr_1 n mrs)
  /\ Zdigits2 (shr_m (iter_pos shr_1 n mrs))
     = Z.max 0 (Zdigits2 (shr_m mrs) - Z.pos n).
Proof.
  induction n as [n IH|n IH|]; intros mrs H; cbn [iter_pos].
  - destruct (shr_1_digits mrs H) as [H1 E1].
    destruct (IH _ H1) as [H2 E2]. destruct (IH _ H2) as [H3 E3].
    split; [exact H3|]. rewrite E3, E2, E1, Pos2Z.inj_xI. lia.
  - destruct (IH _ H) as [H2 E2]. destruct (IH _ H2) as [H3 E3].
    split; [exact H3|]. rewrite E3, E2, Pos2Z.inj_xO. lia.
  - apply shr_1_digits, H.
Qed.

Lemma shr_record_of_loc_m (m : Z) (l : location) :
  shr_m (shr_record_of_loc m l) = m.
Proof. destruct l as [|[]]; reflexivity. Qed.

Lemma shr_fexp_digits (m e : Z) (l : location) :
  0 <= m ->
  let res := shr_fexp prec emax m e l in
  0 <= shr_m (fst res)
  /\ snd res = Z.max e (fexp prec emax (Zdigits2 m + e))
  /\ Zdigits2 (shr_m (fst res)) = Z.max 0 (Zdigits2 m - (snd res - e)).
Proof.
  intros H res. subst res. unfold shr_fexp, shr.
  pose proof (shr_record_of_loc_m m l) as Hm.
  pose proof (Zdigits2_nonneg m) as Hd.
  destruct (fexp prec emax (Zdigits2 m + e) - e) as [|n|n] eqn:En;
    cbn [fst snd]; rewrite ?Hm.
  - repeat split; lia.
  - destruct (shr_iter_digits n (shr_record_of_loc m l)) as [H1 E1]; [lia|].
    rewrite Hm in E1. repeat split; lia.
  - repeat split; lia.
Qed.

Lemma round_nearest_even_bounds (m : Z) (l : location) :
  m <= round_nearest_even m l <= m + 1.
Proof. destruct l as [|[]]; simpl; try destruct (Z.even m); lia. Qed.

(** ** Rounding *)

Lemma binary_round_aux_finite (sx : bool) (mx ex : Z) (lx : location) (B : Z) :
  0 <= mx ->
  Zdigits2 mx + ex <= B ->
  B <= 900 ->
  fin_below sx (Z.max B (-1074) + 1) (binary_round_aux prec emax sx mx ex lx).
Proof.
  intros Hmx HB Hlim. unfold binary_round_aux.
  pose proof (shr_fexp_digits mx ex lx Hmx) as H1. cbv zeta in H1.
  destruct (shr_fexp prec emax mx ex lx) as [mrs1 e1].
  cbn [fst snd] in H1. destruct H1 as (P1 & E1 & D1).
  pose proof (round_nearest_even_bounds (shr_m mrs1) (loc_of_shr_record mrs1))
    as Hr.
  set (m2 := round_nearest_even (shr_m mrs1) (loc_of_shr_record mrs1)) in *.
  assert (0 <= m2) as P2 by lia.
  assert (Zdigits2 m2 <= Zdigits2 (shr_m mrs1) + 1) as D2.
  { transitivity (Zdigits2 (shr_m mrs1 + 1)).
    - apply Zdigits2_mono; lia.
    - apply Zdigits2_succ, P1. }
  pose proof (shr_fexp_digits m2 e1 loc_Exact P2) as H2. cbv zeta in H2.
  destruct (shr_fexp prec emax m2 e1 loc_Exact) as [mrs3 e3].
  cbn [fst snd] in H2. destruct H2 as (P3 & E3 & D3).
  pose proof (Zdigits2_nonneg mx). pose proof (Zdigits2_nonneg m2).
  unfold fexp, emin, prec, emax in *.
  destruct (shr_m mrs3) as [|m|m] eqn:Em; [now left| |lia].
  assert (e3 <= 1024 - 53) as Hov by lia.
  apply Z.leb_le in Hov. rewrite Hov.
  right. exists m, e3. split; [reflexivity|]. lia.
Qed.

(** ** The quotient and the product *)

Lemma SFdiv_finite (c t : Z) :
  0 < c <= t ->
  fin_below false 2 (SFdiv prec emax (exact_of_int c) (exact_of_int t)).
Proof.
  intros H. destruct c as [|c|c]; [lia| |lia]. destruct t as [|t|t]; [lia| |lia].
  cbn [exact_of_int SFdiv xorb]. unfold SFdiv_core_binary.
  pose proof (Zdigits2_mono (Z.pos c) (Z.pos t)) as Hd.
  pose proof (Zdigits2_nonneg (Z.pos c)).
  set (e' := Z.min _ _).
  assert (-1074 <= e' <= -53) as He'.
  { subst e'. unfold fexp, emin, prec, emax. lia. }
  replace (0 - 0 - e') with (- e') by lia.
  destruct (- e') as [|s|s] eqn:Es; [lia| |lia].
  rewrite Z.shiftl_mul_pow2 by lia.
  destruct (Z.div_eucl (Z.pos c * 2 ^ Z.pos s) (Z.pos t)) as [q r] eqn:Eq.
  assert (q = Z.pos c * 2 ^ Z.pos s / Z.pos t) as ->
    by (unfold Z.div; now rewrite Eq).
  assert (0 < 2 ^ Z.pos s) as Hp by (apply Z.pow_pos_nonneg; lia).
  assert (0 <= Z.pos c * 2 ^ Z.pos s / Z.pos t <= 2 ^ Z.pos s) as Hq.
  { split; [apply Z.div_pos; nia|]. apply Z.div_le_upper_bound; nia. }
  change 2 with (Z.max 1 (-1074) + 1) at 1.
  apply binary_round_aux_finite; [lia| |lia].
  assert (Zdigits2 (Z.pos c * 2 ^ Z.pos s / Z.pos t) <= Z.pos s + 1);
    [|lia].
  apply Zdigits2_le; [|lia]. rewrite Z.pow_add_r by lia. lia.
Qed.

Lemma float_of_int_50 :
  float_of_int 50 = S754_finite false 7036874417766400 (-47).
Proof. reflexivity. Qed.

Lemma mul_50_finite (x : float) :
  fin_below false 2 x -> fin_below false 9 (float_mul_int x 50).
Proof.
  unfold float_mul_int. rewrite float_of_int_50.
  intros [->|(m & e & -> & Hm)]; [now left|].
  cbn [SFmul xorb].
  change 9 with (Z.max 8 (-1074) + 1).
  apply binary_round_aux_finite; [lia| |lia].
  pose proof (Zdigits2_mul m 7036874417766400) as Hd.
  change (Zdigits2 (Z.pos 7036874417766400)) with 53 in Hd. lia.
Qed.

Lemma int_of_float_fin (s : bool) (B : Z) (x : float) :
  fin_below s B x -> exists n, int_of_float x = Ok n.
Proof. intros [->|(m & e & -> & _)]; simpl; eauto. Qed.

(** For a count within a positive total the bar length is computed
    without an exception. *)
Lemma bar_length_ok (count total : Z) :
  0 <= count <= total -> 0 < total ->
  bar_length count total = Ok (bar count total).
Proof.
  intros Hc Ht.
  assert (exists n, bar_length count total = Ok n) as [n Hn];
    [|unfold bar; now rewrite Hn].
  unfold bar_length, int_truediv.
  destruct (Z.eqb_spec total 0) as [->|_]; [lia|].
  assert (fin_below false 2
            (SFdiv prec emax (exact_of_int count) (exact_of_int total)))
    as Hq.
  { destruct (Z.eq_dec count 0) as [->|Hnz]; [|apply SFdiv_finite; lia].
    destruct total; try lia. now left. }
  pose proof (mul_50_finite _ Hq) as Hp.
  apply int_of_float_fin in Hp.
  destruct Hq as [E|(m & e & E & _)]; rewrite E in *; exact Hp.
Qed.

Lemma bar_zero (total : Z) : 0 < total -> bar 0 total = 0.
Proof. intros H. destruct total; try lia. reflexivity. Qed.

(** A colour that has every counted character gets the full fifty blocks. *)
Lemma bar_full (total : Z) : 0 < total -> bar total total = 50.
Proof.
  intros H. destruct total as [|t|t]; try lia.
  unfold bar, bar_length, int_truediv.
  cbn [Z.eqb exact_of_int SFdiv xorb]. unfold SFdiv_core_binary.
  replace (Zdigits2 (Z.pos t) + 0 - (Zdigits2 (Z.pos t) + 0)) with 0 by lia.
  change (Z.min (fexp prec emax 0) (0 - 0)) with (-53).
  change (0 - 0 - -53) with 53.
  cbv iota. rewrite Z.shiftl_mul_pow2 by lia.
  assert (Z.div_eucl (Z.pos t * 2 ^ 53) (Z.pos t) = (2 ^ 53, 0)) as ->.
  { rewrite (Z.mul_comm (Z.pos t)).
    pose proof (Z.div_mul (2 ^ 53) (Z.pos t)) as Hq.
    pose proof (Z.mod_mul (2 ^ 53) (Z.pos t)) as Hr.
    unfold Z.div, Z.modulo in Hq, Hr.
    destruct (Z.div_eucl (2 ^ 53 * Z.pos t) (Z.pos t)) as [q r].
    rewrite Hq, Hr by lia. reflexivity. }
  unfold new_location. destruct (Z.even (Z.pos t)); reflexivity.
Qed.

(** ** An upper bound through rounding

    Rounding to nearest never carries a value past a bound that is itself
    representable: the quotient of [count <= total] stays at most one, its
    product with fifty at most fifty. *)

Lemma shr_1_half (mrs : shr_record) :
  0 <= shr_m mrs -> shr_m (shr_1 mrs) = shr_m mrs / 2.
Proof.
  destruct mrs as [m r s]; destruct m as [|[p|p|]|p];
    cbn [shr_1 shr_m]; intros H; try reflexivity; [| |lia].
  - apply (Z.div_unique _ 2 _ 1); lia.
  - apply (Z.div_unique _ 2 _ 0); lia.
Qed.

Lemma shr_iter_quotient (n : positive) : forall mrs : shr_record,
  0 <= shr_m mrs ->
  shr_m (iter_pos shr_1 n mrs) = shr_m mrs / 2 ^ Z.pos n.
Proof.
  induction n as [n IH|n IH|]; intros mrs H; cbn [iter_pos].
  - destruct (shr_1_digits mrs H) as [H1 _].
    destruct (shr_iter_digits n _ H1) as [H2 _].
    rewrite (IH _ H2), (IH _ H1), (shr_1_half _ H).
    rewrite !Z.div_div by lia.
    f_equal. rewrite (Pos2Z.inj_xI n).
    replace (2 * Z.pos n + 1) with (1 + Z.pos n + Z.pos n) by lia.
    rewrite !Z.pow_add_r by lia. change (2 ^ 1) with 2. lia.
  - destruct (shr_iter_digits n _ H) as [H2 _].
    rewrite (IH _ H2), (IH _ H), Z.div_div by lia.
    f_equal. rewrite (Pos2Z.inj_xO n).
    replace (2 * Z.pos n) with (Z.pos n + Z.pos n) by lia.
    rewrite Z.pow_add_r by lia. lia.
  - rewrite shr_1_half by exact H. reflexivity.
Qed.

Lemma shr_1_exact (a : Z) :
  0 <= a ->
  shr_1 (Build_shr_record (a * 2) false false) = Build_shr_record a false false.
Proof.
  intros H. destruct a as [|p|p]; [reflexivity| |lia].
  replace (Z.pos p * 2) with (Z.pos p~0) by lia. reflexivity.
Qed.

Lemma shr_iter_exact (n : positive) : forall a : Z,
  0 <= a ->
  iter_pos shr_1 n (Build_shr_record (a * 2 ^ Z.pos n) false false)
  = Build_shr_record a false false.
Proof.
  induction n as [n IH|n IH|]; intros a H; cbn [iter_pos].
  - assert (0 < 2 ^ Z.pos n) as Hp by (apply Z.pow_pos_nonneg; lia).
    replace (a * 2 ^ Z.pos n~1) with (a * 2 ^ Z.pos n * 2 ^ Z.pos n * 2).
    + rewrite shr_1_exact, IH, IH by nia. reflexivity.
    + rewrite (Pos2Z.inj_xI n).
      replace (2 * Z.pos n + 1) with (1 + Z.pos n + Z.pos n) by lia.
      rewrite !Z.pow_add_r by lia. change (2 ^ 1) with 2. lia.
  - assert (0 < 2 ^ Z.pos n) as Hp by (apply Z.pow_pos_nonneg; lia).
    replace (a * 2 ^ Z.pos n~0) with (a * 2 ^ Z.pos n * 2 ^ Z.pos n).
    + rewrite IH, IH by nia. reflexivity.
    + rewrite (Pos2Z.inj_xO n).
      replace (2 * Z.pos n) with (Z.pos n + Z.pos n) by lia.
      rewrite Z.pow_add_r by lia. lia.
  - change (2 ^ 1) with 2. now apply shr_1_exact.
Qed.

(** What [shr_fexp] returns: the exponent, the quotient, and an exact
    record when nothing is lost. *)
Lemma shr_fexp_quotient (m e : Z) (l : location) :
  0 <= m ->
  let res := shr_fexp prec emax m e l in
  e <= snd res
  /\ snd res = Z.max e (fexp prec emax (Zdigits2 m + e))
  /\ shr_m (fst res) = m / 2 ^ (snd res - e)
  /\ (l = loc_Exact -> forall a, 0 <= a -> m = a * 2 ^ (snd res - e) ->
      fst res = Build_shr_record a false false).
Proof.
  intros H res. subst res. unfold shr_fexp, shr.
  pose proof (shr_record_of_loc_m m l) as Hm.
  destruct (fexp prec emax (Zdigits2 m + e) - e) as [|n|n] eqn:En;
    cbn [fst snd].
  - replace (e - e) with 0 by lia. rewrite Hm, Z.div_1_r.
    repeat split; try lia. intros -> a Ha ->. cbn. f_equal. lia.
  - replace (e + Z.pos n - e) with (Z.pos n) by lia.
    rewrite shr_iter_quotient, Hm by (rewrite Hm; exact H).
    repeat split; try lia. intros -> a Ha ->. cbn [shr_record_of_loc].
    now apply shr_iter_exact.
  - replace (e - e) with 0 by lia. rewrite Hm, Z.div_1_r.
    repeat split; try lia. intros -> a Ha ->. cbn. f_equal. lia.
Qed.

Lemma pow2_split (A x y : Z) :
  0 <= x -> 0 <= y -> A * 2 ^ (x + y) = A * 2 ^ x * 2 ^ y.
Proof. intros Hx Hy. rewrite Z.pow_add_r by lia. lia. Qed.

Lemma dyadic_digits (m A k : Z) :
  0 <= m <= A * 2 ^ k -> 0 < A <= 2 ^ 52 -> 0 <= k -> Zdigits2 m <= 53 + k.
Proof.
  intros Hm HA Hk. apply Zdigits2_le; [|lia].
  assert (0 < 2 ^ k) by (apply Z.pow_pos_nonneg; lia).
  rewrite Z.pow_add_r by lia. change (2 ^ 53) with (2 * 2 ^ 52). nia.
Qed.

Lemma binary_round_aux_at_most
    (sx : bool) (mx ex : Z) (lx : location) (A a : Z) :
  0 <= mx -> 0 < A <= 2 ^ 52 -> -1074 <= a <= 900 -> ex <= a ->
  mx <= A * 2 ^ (a - ex) ->
  (mx = A * 2 ^ (a - ex) -> lx = loc_Exact) ->
  at_most sx A a (binary_round_aux prec emax sx mx ex lx).
Proof.
  intros Hmx HA Ha Hex Hle Hexact. unfold binary_round_aux.
  pose proof (shr_fexp_quotient mx ex lx Hmx) as H1. cbv zeta in H1.
  destruct (shr_fexp prec emax mx ex lx) as [mrs1 e1].
  cbn [fst snd] in H1. destruct H1 as (G1 & E1 & Q1 & X1).
  pose proof (dyadic_digits mx A (a - ex) (conj Hmx Hle) HA ltac:(lia)) as D1.
  assert (e1 <= a) as He1 by (unfold fexp, emin, prec, emax in E1; lia).
  set (T1 := A * 2 ^ (a - e1)).
  assert (0 < 2 ^ (a - e1)) as Hp1 by (apply Z.pow_pos_nonneg; lia).
  assert (0 < 2 ^ (e1 - ex)) as Hp2 by (apply Z.pow_pos_nonneg; lia).
  assert (A * 2 ^ (a - ex) = T1 * 2 ^ (e1 - ex)) as HB.
  { subst T1. rewrite <- pow2_split by lia. f_equal. f_equal. lia. }
  set (m2 := round_nearest_even (shr_m mrs1) (loc_of_shr_record mrs1)).
  assert (0 <= m2 <= T1) as Hm2.
  { destruct (Z.eq_dec mx (A * 2 ^ (a - ex))) as [Heq|Hne].
    - specialize (X1 (Hexact Heq) T1 ltac:(subst T1; nia) ltac:(lia)).
      subst m2. rewrite X1. cbn. subst T1. nia.
    - pose proof (round_nearest_even_bounds (shr_m mrs1)
                    (loc_of_shr_record mrs1)) as Hr. fold m2 in Hr.
      assert (0 <= shr_m mrs1 < T1); [|lia].
      rewrite Q1. split; [apply Z.div_pos; lia|].
      apply Z.div_lt_upper_bound; lia. }
  pose proof (shr_fexp_quotient m2 e1 loc_Exact (proj1 Hm2)) as H2.
  cbv zeta in H2.
  destruct (shr_fexp prec emax m2 e1 loc_Exact) as [mrs3 e3].
  cbn [fst snd] in H2. destruct H2 as (G3 & E3 & Q3 & _).
  pose proof (dyadic_digits m2 A (a - e1) Hm2 HA ltac:(lia)) as D2.
  assert (e3 <= a) as He3 by (unfold fexp, emin, prec, emax in E3; lia).
  assert (0 < 2 ^ (e3 - e1)) as Hp3 by (apply Z.pow_pos_nonneg; lia).
  assert (0 <= shr_m mrs3 <= A * 2 ^ (a - e3)) as Hm3.
  { rewrite Q3. split; [apply Z.div_pos; lia|].
    apply Z.div_le_upper_bound; [lia|].
    replace (2 ^ (e3 - e1) * (A * 2 ^ (a - e3)))
      with (A * 2 ^ ((a - e3) + (e3 - e1))) by (rewrite pow2_split; lia).
    replace (a - e3 + (e3 - e1)) with (a - e1) by lia. apply Hm2. }
  destruct (shr_m mrs3) as [|m|m]; [now left| |lia].
  assert ((e3 <=? emax - prec) = true) as ->
    by (apply Z.leb_le; unfold emax, prec; lia).
  right. exists m, e3. repeat split; [exact He3 | apply Hm3].
Qed.

Lemma new_location_zero (n : Z) : new_location n 0 = loc_Exact.
Proof. unfold new_location. destruct (Z.even n); reflexivity. Qed.

Lemma SFdiv_at_most_one (c t : Z) :
  0 < c <= t ->
  at_most false 1 0 (SFdiv prec emax (exact_of_int c) (exact_of_int t)).
Proof.
  intros H. destruct c as [|c|c]; [lia| |lia]. destruct t as [|t|t]; [lia| |lia].
  cbn [exact_of_int SFdiv xorb]. unfold SFdiv_core_binary.
  pose proof (Zdigits2_mono (Z.pos c) (Z.pos t)) as Hd.
  pose proof (Zdigits2_nonneg (Z.pos c)).
  set (e' := Z.min _ _).
  assert (-1074 <= e' <= -53) as He'.
  { subst e'. unfold fexp, emin, prec, emax. lia. }
  replace (0 - 0 - e') with (- e') by lia.
  destruct (- e') as [|s|s] eqn:Es; [lia| |lia].
  rewrite Z.shiftl_mul_pow2 by lia.
  assert (0 < 2 ^ Z.pos s) as Hp by (apply Z.pow_pos_nonneg; lia).
  pose proof (Z.div_mod (Z.pos c * 2 ^ Z.pos s) (Z.pos t) ltac:(lia)) as Hdm.
  pose proof (Z.mod_pos_bound (Z.pos c * 2 ^ Z.pos s) (Z.pos t) ltac:(lia))
    as Hr.
  unfold Z.div, Z.modulo in Hdm, Hr.
  destruct (Z.div_eucl (Z.pos c * 2 ^ Z.pos s) (Z.pos t)) as [q r].
  assert (0 <= q <= 2 ^ Z.pos s) as Hq by nia.
  replace (2 ^ Z.pos s) with (1 * 2 ^ (0 - e')) in Hq
    by (replace (0 - e') with (Z.pos s) by lia; lia).
  apply binary_round_aux_at_most; try lia.
  intros Heq. replace (0 - e') with (Z.pos s) in Heq by lia.
  assert (r = 0) as -> by nia. apply new_location_zero.
Qed.

Lemma mul_50_at_most (x : float) :
  at_most false 1 0 x -> at_most false 25 1 (float_mul_int x 50).
Proof.
  unfold float_mul_int. rewrite float_of_int_50.
  intros [->|(m & e & -> & He & Hm)]; [now left|].
  cbn [SFmul xorb].
  assert (0 < 2 ^ (0 - e)) as Hp by (apply Z.pow_pos_nonneg; lia).
  apply binary_round_aux_at_most; try lia; [|reflexivity].
  replace (1 - (e + -47)) with (48 + (0 - e)) by lia.
  rewrite pow2_split, Pos2Z.inj_mul by lia.
  change (25 * 2 ^ 48) with 7036874417766400. nia.
Qed.

Lemma int_of_float_at_most_50 (x : float) :
  at_most false 25 1 x -> exists n, int_of_float x = Ok n /\ 0 <= n <= 50.
Proof.
  intros [->|(m & e & -> & He & Hm)]; [exists 0; split; [reflexivity | lia]|].
  cbn [int_of_float]. eexists. split; [reflexivity|].
  destruct (Z.leb_spec 0 e) as [Hpos|Hneg].
  - assert (e = 0 \/ e = 1) as [-> | ->] by lia.
    + change (2 ^ (1 - 0)) with 2 in Hm. change (2 ^ 0) with 1. lia.
    + change (2 ^ (1 - 1)) with 1 in Hm. change (2 ^ 1) with 2. lia.
  - assert (0 < 2 ^ (- e)) as Hp by (apply Z.pow_pos_nonneg; lia).
    replace (1 - e) with (1 + (- e)) in Hm by lia.
    rewrite pow2_split in Hm by lia. change (25 * 2 ^ 1) with 50 in Hm.
    split; [apply Z.div_pos; lia|].
    apply Z.div_le_upper_bound; lia.
Qed.

Lemma bar_bounds (count total : Z) :
  0 <= count <= total -> 0 < total -> 0 <= bar count total <= 50.
Proof.
  intros Hc Ht. unfold bar, bar_length, int_truediv.
  destruct (Z.eqb_spec total 0) as [->|_]; [lia|].
  assert (at_most false 1 0
            (SFdiv prec emax (exact_of_int count) (exact_of_int total)))
    as Hq.
  { destruct (Z.eq_dec count 0) as [->|Hnz]; [|apply SFdiv_at_most_one; lia].
    destruct total; try lia. now left. }
  destruct (int_of_float_at_most_50 _ (mul_50_at_most _ Hq)) as (n & En & Hn).
  destruct Hq as [E|(m & e & E & _)]; rewrite E in *; cbn [rbind];
    rewrite En; exact Hn.
Qed.

(* ================================================================== *)
(** * [build_color_stats] *)

Lemma str_repeat_block (n : Z) : str_repeat [FULL_BLOCK] n = blocks n.
Proof.
  unfold str_repeat, blocks.
  induction (Z.to_nat n) as [|k IH]; simpl; [reflexivity | now rewrite IH].
Qed.

Section Bars.

Variable colors_used : dict.
Variable total : Z.
Hypothesis total_pos : 0 < total.

Lemma add_bar_ok (k : str) (v : Z) (en : bool) (acc : str) :
  dict_get colors_used k = Ok v -> 0 <= v <= total ->
  add_bar colors_used total k (mk en acc)
  = (Ok tt, mk en (acc ++ report_entry total (k, v))).
Proof.
  intros Hget Hv.
  unfold add_bar, bind, get_color_stats, lift, set_color_stats.
  cbn [color_stats enabled]. rewrite Hget, (bar_length_ok v total Hv total_pos).
  unfold report_entry, colored_string. cbn [fst snd].
  now rewrite str_repeat_block, <- !app_assoc.
Qed.

(** The loop appends one entry per item, in the order of the items. *)
Lemma for_each_add_bar (items : list (str * Z)) :
  Forall (fun kv => dict_get colors_used (fst kv) = Ok (snd kv)
                    /\ 0 <= snd kv <= total) items ->
  forall (en : bool) (acc : str),
    for_each (keys items) (add_bar colors_used total) (mk en acc)
    = (Ok tt, mk en (acc ++ flat_map (report_entry total) items)).
Proof.
  induction 1 as [|[k v] items [Hget Hv] _ IH]; intros en acc.
  - cbn. now rewrite app_nil_r.
  - cbn [keys map fst for_each flat_map]. unfold bind at 1.
    cbn [fst snd] in Hget, Hv.
    rewrite (add_bar_ok k v en acc Hget Hv).
    fold (keys items). rewrite IH, <- app_assoc. reflexivity.
Qed.

End Bars.

Lemma build_color_stats_report (d : dict) (self : t) :
  NoDup (keys d) -> Forall (Z.le 0) (values d) -> 0 < sum (values d) ->
  build_color_stats d self = (Ok tt, mk (enabled self) (report d)).
Proof.
  intros ND Hnn Ht. unfold build_color_stats, bind at 1, set_color_stats.
  apply for_each_add_bar; [exact Ht|].
  apply Forall_and; [apply dict_get_own, ND|].
  apply sum_bounds in Hnn. unfold values in Hnn at 2.
  now apply Forall_map in Hnn.
Qed.

(** ** On the histogram of a scan *)

Lemma keys_hist (b r g m c z : Z) :
  keys (hist b r g m c z) = [BLUE; RED; GREEN; MAGENTA; CYAN; RESET].
Proof. reflexivity. Qed.

Lemma NoDup_keys_hist (b r g m c z : Z) : NoDup (keys (hist b r g m c z)).
Proof.
  rewrite keys_hist.
  repeat (constructor; [simpl; intuition discriminate|]). constructor.
Qed.

Lemma values_histogram_nonneg (text : str) :
  Forall (Z.le 0) (values (histogram text)).
Proof. repeat (constructor; [apply tally_nonneg|]). constructor. Qed.

(* ================================================================== *)
(** * [ascii_color_chars], enabled *)

(** With a character other than the space in [text] the call returns the
    painted text and leaves the report of the histogram in [color_stats]. *)
Lemma ascii_color_chars_inked (text old : str) :
  0 < ink text ->
  ascii_color_chars text (mk true old)
  = (Ok (flat_map rendered text), mk true (report (histogram text))).
Proof.
  intros Hink. unfold ascii_color_chars, bind at 1, get_enabled.
  cbn [enabled]. unfold bind at 1, lift. rewrite scan_init. cbn [fst snd].
  unfold bind at 1.
  rewrite build_color_stats_report;
    [reflexivity | apply NoDup_keys_hist | apply values_histogram_nonneg |].
  now rewrite sum_histogram.
Qed.

(** Without one the total is zero and the first bar divides by it; the
    header has been assigned by then. *)
Lemma ascii_color_chars_blank (text old : str) :
  ink text = 0 ->
  ascii_color_chars text (mk true old)
  = (Raise ZeroDivisionError, mk true stats_header).
Proof.
  intros Hink. unfold ascii_color_chars, bind at 1, get_enabled.
  cbn [enabled]. unfold bind at 1, lift. rewrite scan_init. cbn [fst snd].
  assert (histogram text = hist 0 0 0 0 0 0) as ->; [|reflexivity].
  pose proof (tally_total text).
  pose proof (tally_nonneg Blue text). pose proof (tally_nonneg Red text).
  pose proof (tally_nonneg Green text). pose proof (tally_nonneg Magenta text).
  pose proof (tally_nonneg Cyan text). pose proof (tally_nonneg Reset text).
  unfold histogram. repeat f_equal; lia.
Qed.

(* ================================================================== *)
(** * Stripping what the scan inserts *)

Lemma strip_rendered (c : char) (rest : str) :
  c <> ESC ->
  strip_from Text (rendered c ++ rest) = c :: strip_from Text rest.
Proof.
  intros Hc. unfold rendered, classify.
  repeat (by_char c; [reflexivity|]).
  cbn. destruct (char_eqb c ESC) eqn:Hesc; [|reflexivity].
  now apply char_eqb_eq in Hesc.
Qed.

Lemma strip_painted (text : str) :
  ~ In ESC text -> strip_ansi (flat_map rendered text) = text.
Proof.
  unfold strip_ansi. induction text as [|c text IH]; intros H; [reflexivity|].
  cbn [flat_map]. rewrite strip_rendered, IH; [reflexivity| |];
    intros Hin; apply H; simpl; auto.
Qed.

(** ** The rule, entry by entry *)

Lemma classify_table :
  classify (chr "3") = Painted Blue
  /\ classify (chr "&") = Painted Red
  /\ classify (chr "=") = Painted Green
  /\ classify (chr "+") = Painted Magenta
  /\ classify (chr "*") = Painted Magenta
  /\ classify (chr "#") = Painted Cyan
  /\ classify (chr "?") = Painted Cyan
  /\ classify (chr " ") = Blank
  /\ (forall c, ~ In c (lit "3&=+*#? ") -> classify c = Plain).
Proof.
  repeat (split; [reflexivity|]).
  intros c H. unfold classify.
  repeat (by_char c; [exfalso; apply H; simpl; tauto|]). reflexivity.
Qed.

Lemma classify_painted (c : char) (k : Color) :
  classify c = Painted k -> k <> Reset /\ k <> Yellow.
Proof.
  unfold classify.
  repeat (by_char c; [intros [= <-]; split; discriminate|]). discriminate.
Qed.

Lemma tally_Reset_plain (text : str) :
  tally Reset text
  = Z.of_nat (List.length
      (filter (fun c => match classify c with Plain => true | _ => false end)
              text)).
Proof.
  induction text as [|c text IH]; [reflexivity|].
  cbn [tally filter]. rewrite IH. unfold hit, bucket.
  pose proof (classify_painted c) as Hk.
  destruct (classify c) as [k| |].
  - destruct k; cbn [Color_eqb List.length]; try lia.
    now destruct (Hk Reset eq_refl).
  - cbn [List.length]. lia.
  - cbn [Color_eqb List.length]. lia.
Qed.

Lemma spaces_count_occ (text : str) :
  spaces text = Z.of_nat (count_occ N.eq_dec text SPACE).
Proof.
  induction text as [|c text IH]; [reflexivity|].
  cbn [spaces count_occ]. rewrite IH.
  destruct (N.eq_dec c SPACE) as [->|Hn].
  - rewrite char_eqb_refl. lia.
  - destruct (char_eqb c SPACE) eqn:E; [now apply char_eqb_eq in E | lia].
Qed.

(** The bar length is computed in binary64: where the rounded quotient
    falls just below the exact one, the bar is one block shorter than the
    exact [floor(count * 50 / total)]. *)
Example bar_29_of_50 : bar_length 29 50 = Ok 28 /\ spec_bar 29 50 = 29.
Proof. split; reflexivity. Qed.

(** ** The scenarios of the specification *)

Example scenario_every_painted_character :
  ascii_color_chars (lit "3&=+*#?") (mk true [])
  = (Ok (BLUE ++ lit "3" ++ RESET ++ RED ++ lit "&" ++ RESET
           ++ GREEN ++ lit "=" ++ RESET ++ MAGENTA ++ lit "+" ++ RESET
           ++ MAGENTA ++ lit "*" ++ RESET ++ CYAN ++ lit "#" ++ RESET
           ++ CYAN ++ lit "?" ++ RESET),
     mk true (report (hist 1 1 1 2 2 0)))
  /\ strip_ansi (flat_map rendered (lit "3&=+*#?")) = lit "3&=+*#?".
Proof.
  split; [|reflexivity].
  rewrite ascii_color_chars_inked; reflexivity.
Qed.

Example scenario_plain_text :
  scan (lit "ab") ([], colors_used_init) = Ok (lit "ab", hist 0 0 0 0 0 2)
  /\ bar_length 2 2 = Ok 50
  /\ bar_length 0 2 = Ok 0.
Proof. repeat split. Qed.

(* ================================================================== *)
(** * The properties of the specification *)

(** C1. With the colorizer enabled the scan treats every character of every
    input by the first-match rule of [classify] (see [classify_table]): '3'
    is wrapped in Blue, '&' in Red, '=' in Green, '+' and '*' in Magenta,
    '#' and '?' in Cyan, each as colour + character + reset; a space is
    passed through and not counted; any other character is passed through
    and counted under Reset.  The pieces are concatenated in input order,
    and this is the string the call returns whenever it returns, which it
    does exactly when the text has a character other than the space. *)
Theorem C1_scan_classifies (text old : str) :
  scan text ([], colors_used_init)
  = Ok (flat_map rendered text, histogram text)
  /\ fst (ascii_color_chars text (mk true old))
     = (if 0 <? ink text then Ok (flat_map rendered text)
        else Raise ZeroDivisionError).
Proof.
  split; [apply scan_init|].
  destruct (Z.ltb_spec 0 (ink text)) as [H|H].
  - now rewrite ascii_color_chars_inked.
  - pose proof (ink_nonneg text).
    rewrite ascii_color_chars_blank; [reflexivity | lia].
Qed.

(** C2 (amended). For every input string without an ESC character,
    removing the escape sequences from the text the enabled scan builds
    gives back the input; when the input has a character other than the
    space the call returns that text, so the round trip holds of its
    output. *)
Theorem C2_strip_roundtrip (text old : str) :
  ~ In ESC text ->
  strip_ansi (flat_map rendered text) = text
  /\ (0 < ink text ->
      exists out self',
        ascii_color_chars text (mk true old) = (Ok out, self')
        /\ strip_ansi out = text).
Proof.
  intros H. split; [now apply strip_painted|].
  intros Hink. eexists _, _. split; [now apply ascii_color_chars_inked|].
  now apply strip_painted.
Qed.

Lemma C2_strip_roundtrip_witness :
  ~ In ESC (lit "3 a")
  /\ strip_ansi (flat_map rendered (lit "3 a")) = lit "3 a"
  /\ (0 < ink (lit "3 a") ->
      exists out self',
        ascii_color_chars (lit "3 a") (mk true []) = (Ok out, self')
        /\ strip_ansi out = lit "3 a").
Proof.
  assert (~ In ESC (lit "3 a")) as H by (simpl; intuition discriminate).
  split; [exact H | exact (C2_strip_roundtrip (lit "3 a") [] H)].
Defined.

(** C2, as stated, fails on an input that already holds an escape
    sequence: the scan returns it unchanged and the stripping removes it. *)
Lemma C2_counterexample :
  fst (ascii_color_chars (RESET ++ lit "hi") (mk true []))
  = Ok (RESET ++ lit "hi")
  /\ strip_ansi (RESET ++ lit "hi") = lit "hi"
  /\ lit "hi" <> RESET ++ lit "hi".
Proof.
  split; [vm_compute; reflexivity|].
  split; [vm_compute; reflexivity | discriminate].
Qed.

(** C3. On a text of two spaces the enabled call does not return: the
    total is zero, the first bar raises [ZeroDivisionError], and
    [color_stats] is left holding the bare header. *)
Theorem C3_blank_text_raises :
  ascii_color_chars (lit "  ") (mk true [])
  = (Raise ZeroDivisionError, mk true stats_header).
Proof. now apply ascii_color_chars_blank. Qed.

(** C4. For every text, the empty one included, and every colour constant
    [C], [colored_string] gives the escape of [C], the text and the escape
    of Reset, in this order.  It is a static method: called on an instance
    in any state, enabled or not, it returns this and leaves the instance
    as it was. *)
Theorem C4_colored_string (text : str) (C : Color) (self : t) :
  ret (colored_string text (escape C)) self
  = (Ok (escape C ++ text ++ escape Reset), self).
Proof. unfold ret, colored_string. now rewrite <- app_assoc. Qed.

(** C5. With the colorizer disabled, [ascii_color_chars] returns its input
    unchanged and leaves the instance, [color_stats] included, as it was. *)
Theorem C5_disabled_identity (text : str) (self : t) :
  enabled self = false ->
  ascii_color_chars text self = (Ok text, self).
Proof.
  intros H. unfold ascii_color_chars, bind, get_enabled. now rewrite H.
Qed.

Lemma C5_disabled_identity_witness :
  enabled init = false
  /\ ascii_color_chars (lit "3&= a") init = (Ok (lit "3&= a"), init).
Proof.
  split; [reflexivity|].
  apply (C5_disabled_identity (lit "3&= a") init). reflexivity.
Defined.

(** C6 (amended). For every histogram with non-negative counts and a
    positive total, [build_color_stats] stores the fixed header followed
    by one entry per key in the order of the dictionary: the key's escape,
    a line break, [int(count/total*50)] full blocks as binary64 arithmetic
    evaluates it, and the reset.  For the histogram of a scan the keys are
    Blue, Red, Green, Magenta, Cyan, Reset, in this order, with no entry
    for Yellow; after an enabled scan of a text with a character other
    than the space this report replaces whatever was stored. *)
Theorem C6_report :
  (forall (d : dict) (self : t),
      NoDup (keys d) -> Forall (Z.le 0) (values d) -> 0 < sum (values d) ->
      build_color_stats d self = (Ok tt, mk (enabled self) (report d)))
  /\ (forall text old : str,
         0 < ink text ->
         keys (histogram text) = [BLUE; RED; GREEN; MAGENTA; CYAN; RESET]
         /\ snd (ascii_color_chars text (mk true old))
            = mk true (report (histogram text))).
Proof.
  split.
  - intros d self. apply build_color_stats_report.
  - intros text old H. split; [reflexivity|].
    now rewrite ascii_color_chars_inked.
Qed.

Lemma C6_report_witness :
  (NoDup (keys [(RED, 1); (YELLOW, 3)])
   /\ Forall (Z.le 0) (values [(RED, 1); (YELLOW, 3)])
   /\ 0 < sum (values [(RED, 1); (YELLOW, 3)])
   /\ build_color_stats [(RED, 1); (YELLOW, 3)] init
      = (Ok tt, mk false (report [(RED, 1); (YELLOW, 3)])))
  /\ (0 < ink (lit "ab")
      /\ keys (histogram (lit "ab"))
         = [BLUE; RED; GREEN; MAGENTA; CYAN; RESET]
      /\ snd (ascii_color_chars (lit "ab") (mk true (lit "old")))
         = mk true (report (histogram (lit "ab")))).
Proof.
  assert (NoDup (keys [(RED, 1); (YELLOW, 3)])) as ND.
  { repeat (constructor; [simpl; intuition discriminate|]). constructor. }
  assert (Forall (Z.le 0) (values [(RED, 1); (YELLOW, 3)])) as NN.
  { repeat (constructor; [simpl; lia|]). constructor. }
  assert (0 < sum (values [(RED, 1); (YELLOW, 3)])) as TP by reflexivity.
  assert (0 < ink (lit "ab")) as IP by reflexivity.
  split.
  - repeat (split; [assumption|]).
    exact (proj1 C6_report [(RED, 1); (YELLOW, 3)] init ND NN TP).
  - split; [exact IP|].
    exact (proj2 C6_report (lit "ab") (lit "old") IP).
Defined.

(** C6, as stated, fails on the text "ab": the stored report opens with
    the Blue entry and has six of them, the report of the specification
    opens with the Red one and has seven. *)
Lemma C6_counterexample :
  color_stats (snd (ascii_color_chars (lit "ab") (mk true [])))
  <> spec_report (fun k => tally k (lit "ab")).
Proof.
  intros H. apply str_eqb_eq in H. vm_compute in H. discriminate H.
Qed.

(** C7 (amended). For every enabled scan the histogram handed to the report
    builder has exactly the six keys Blue, Red, Green, Magenta, Cyan and
    Reset: every colour but Yellow.  The Reset entry counts the characters
    that are neither a space nor one of the seven painted ones. *)
Theorem C7_histogram_keys (text : str) :
  exists colored d,
    scan text ([], colors_used_init) = Ok (colored, d)
    /\ keys d = [BLUE; RED; GREEN; MAGENTA; CYAN; RESET]
    /\ (forall k : Color, In (escape k) (keys d) <-> k <> Yellow)
    /\ dict_get d (escape Reset)
       = Ok (Z.of_nat (List.length
               (filter (fun c => match classify c with
                                 | Plain => true
                                 | _ => false
                                 end) text))).
Proof.
  exists (flat_map rendered text), (histogram text).
  split; [apply scan_init|]. split; [reflexivity|]. split.
  - intros k. unfold histogram. rewrite keys_hist.
    destruct k; simpl; split; intros H;
      solve [discriminate | tauto | intuition discriminate | exfalso; now apply H].
  - rewrite <- tally_Reset_plain. reflexivity.
Qed.

(** C7, as stated, fails on every text, "ab" for one: Yellow is no key of
    the histogram. *)
Lemma C7_counterexample :
  exists colored d,
    scan (lit "ab") ([], colors_used_init) = Ok (colored, d)
    /\ ~ In (escape Yellow) (keys d).
Proof.
  eexists _, _. split; [reflexivity|]. simpl. intuition discriminate.
Qed.

(** C8. For every text scanned while enabled the counts of the histogram
    are non-negative and add up to the length of the text less the number
    of its spaces. *)
Theorem C8_counts (text : str) :
  exists colored d,
    scan text ([], colors_used_init) = Ok (colored, d)
    /\ Forall (Z.le 0) (values d)
    /\ sum (values d)
       = Z.of_nat (List.length text)
         - Z.of_nat (count_occ N.eq_dec text SPACE).
Proof.
  exists (flat_map rendered text), (histogram text).
  split; [apply scan_init|]. split; [apply values_histogram_nonneg|].
  now rewrite sum_histogram, ink_spaces, spaces_count_occ.
Qed.

(** C9. Whatever the state of the instance, enabled or not, [warning]
    returns [colored_string] of the text in Yellow, [error] in Red, [info]
    in Cyan and [success] in Green, and none touches the instance. *)
Theorem C9_semantic_wrappers (text : str) (self : t) :
  warning text self = (Ok (colored_string text (escape Yellow)), self)
  /\ error text self = (Ok (colored_string text (escape Red)), self)
  /\ info text self = (Ok (colored_string text (escape Cyan)), self)
  /\ success text self = (Ok (colored_string text (escape Green)), self).
Proof. repeat split. Qed.

(** C10. For every text with a character other than the space, the enabled
    call returns: the total of the histogram handed to [build_color_stats]
    is positive, no bar divides by zero, and no other exception is raised. *)
Theorem C10_inked_text_returns (text old : str) :
  (exists c, In c text /\ c <> SPACE) ->
  exists colored d self',
    scan text ([], colors_used_init) = Ok (colored, d)
    /\ 0 < sum (values d)
    /\ build_color_stats d (mk true old) = (Ok tt, self')
    /\ ascii_color_chars text (mk true old) = (Ok colored, self').
Proof.
  intros H. apply ink_pos_iff in H.
  exists (flat_map rendered text), (histogram text),
    (mk true (report (histogram text))).
  split; [apply scan_init|]. split; [now rewrite sum_histogram|].
  split; [|now apply ascii_color_chars_inked].
  apply (build_color_stats_report (histogram text) (mk true old));
    [apply NoDup_keys_hist | apply values_histogram_nonneg |].
  now rewrite sum_histogram.
Qed.

Lemma C10_inked_text_returns_witness :
  (exists c, In c (lit "a") /\ c <> SPACE)
  /\ exists colored d self',
       scan (lit "a") ([], colors_used_init) = Ok (colored, d)
       /\ 0 < sum (values d)
       /\ build_color_stats d (mk true []) = (Ok tt, self')
       /\ ascii_color_chars (lit "a") (mk true []) = (Ok colored, self').
Proof.
  assert (exists c, In c (lit "a") /\ c <> SPACE) as H.
  { exists (chr "a"). split; [now left | discriminate]. }
  split; [exact H | exact (C10_inked_text_returns (lit "a") [] H)].
Defined.

(* ================================================================== *)
(** * More about the scan and the report *)

Local Open Scope py_scope.

(** ** Blank texts *)

Lemma ink_zero_iff (text : str) :
  ink text = 0 <-> Forall (fun c => c = SPACE) text.
Proof.
  induction text as [|c text IH]; cbn [ink].
  - split; [constructor | reflexivity].
  - pose proof (ink_nonneg text). destruct (char_eqb c SPACE) eqn:E.
    + apply char_eqb_eq in E. rewrite Z.add_0_l, IH.
      split; [now constructor | now inversion 1].
    + split; [lia|]. inversion 1 as [|? ? Hc _]; subst.
      now rewrite char_eqb_refl in E.
Qed.

(** ** The flag *)

Lemma add_bar_enabled (d : dict) (total : Z) (k : str) (self : t) :
  enabled (snd (add_bar d total k self)) = enabled self.
Proof.
  unfold add_bar, bind, get_color_stats, lift, set_color_stats.
  destruct (dict_get d k) as [v|e]; [|reflexivity].
  destruct (bar_length v total); reflexivity.
Qed.

Lemma for_each_add_bar_enabled (d : dict) (total : Z) (ks : list str) :
  forall self : t,
    enabled (snd (for_each ks (add_bar d total) self)) = enabled self.
Proof.
  induction ks as [|k ks IH]; intros self; [reflexivity|].
  cbn [for_each]. unfold bind.
  pose proof (add_bar_enabled d total k self) as Hk.
  destruct (add_bar d total k self) as [[u|e] self']; cbn [snd] in *.
  - now rewrite IH.
  - exact Hk.
Qed.

Lemma build_color_stats_enabled (d : dict) (self : t) :
  enabled (snd (build_color_stats d self)) = enabled self.
Proof.
  unfold build_color_stats, bind at 1, set_color_stats.
  now rewrite for_each_add_bar_enabled.
Qed.

(** ** Counting by character *)

Lemma occurrences_cons (c x : char) (text : str) :
  occurrences c (x :: text)
  = (if char_eqb x c then 1 else 0) + occurrences c text.
Proof.
  unfold occurrences. cbn [count_occ]. destruct (N.eq_dec x c) as [->|Hn].
  - rewrite char_eqb_refl. lia.
  - destruct (char_eqb x c) eqn:E; [now apply char_eqb_eq in E | lia].
Qed.

Lemma hit_by_char (c : char) :
  hit Blue c = (if char_eqb c (chr "3") then 1 else 0)
  /\ hit Red c = (if char_eqb c (chr "&") then 1 else 0)
  /\ hit Green c = (if char_eqb c (chr "=") then 1 else 0)
  /\ hit Magenta c = (if char_eqb c (chr "+") then 1 else 0)
                     + (if char_eqb c (chr "*") then 1 else 0)
  /\ hit Cyan c = (if char_eqb c (chr "#") then 1 else 0)
                  + (if char_eqb c (chr "?") then 1 else 0).
Proof.
  unfold hit, bucket, classify.
  repeat (by_char c; [repeat split; reflexivity|]).
  repeat split; reflexivity.
Qed.

Lemma tally_by_char (text : str) :
  tally Blue text = occurrences (chr "3") text
  /\ tally Red text = occurrences (chr "&") text
  /\ tally Green text = occurrences (chr "=") text
  /\ tally Magenta text = occurrences (chr "+") text + occurrences (chr "*") text
  /\ tally Cyan text = occurrences (chr "#") text + occurrences (chr "?") text.
Proof.
  induction text as [|c text (IB & IR & IG & IM & IC)];
    [repeat split; reflexivity|].
  cbn [tally]. rewrite !occurrences_cons.
  destruct (hit_by_char c) as (HB & HR & HG & HM & HC).
  rewrite HB, HR, HG, HM, HC, IB, IR, IG, IM, IC. repeat split; lia.
Qed.

(** ** Lengths *)

Lemma length_rendered (c : char) :
  Z.of_nat (List.length (rendered c))
  = 1 + 9 * (hit Blue c + hit Red c + hit Green c + hit Magenta c
             + hit Cyan c).
Proof.
  unfold rendered, hit, bucket, classify.
  repeat (by_char c; [reflexivity|]). reflexivity.
Qed.

Lemma length_painted (text : str) :
  Z.of_nat (List.length (flat_map rendered text))
  = Z.of_nat (List.length text)
    + 9 * (tally Blue text + tally Red text + tally Green text
           + tally Magenta text + tally Cyan text).
Proof.
  induction text as [|c text IH]; [reflexivity|].
  cbn [flat_map tally List.length]. rewrite length_app, Nat2Z.inj_add.
  rewrite length_rendered, IH. lia.
Qed.

Lemma length_report_histogram (text : str) :
  0 < ink text ->
  (116 <= List.length (report (histogram text)) <= 416)%nat.
Proof.
  intros Hink. unfold report. rewrite sum_histogram.
  pose proof (tally_total text) as Ht.
  pose proof (tally_nonneg Blue text). pose proof (tally_nonneg Red text).
  pose proof (tally_nonneg Green text). pose proof (tally_nonneg Magenta text).
  pose proof (tally_nonneg Cyan text). pose proof (tally_nonneg Reset text).
  pose proof (bar_bounds (tally Blue text) (ink text)).
  pose proof (bar_bounds (tally Red text) (ink text)).
  pose proof (bar_bounds (tally Green text) (ink text)).
  pose proof (bar_bounds (tally Magenta text) (ink text)).
  pose proof (bar_bounds (tally Cyan text) (ink text)).
  pose proof (bar_bounds (tally Reset text) (ink text)).
  unfold histogram, hist, report_entry, blocks. cbn [flat_map fst snd].
  rewrite !length_app, !repeat_length.
  change (List.length stats_header) with 57%nat.
  change (List.length BLUE) with 5%nat. change (List.length RED) with 5%nat.
  change (List.length GREEN) with 5%nat.
  change (List.length MAGENTA) with 5%nat.
  change (List.length CYAN) with 5%nat. change (List.length RESET) with 4%nat.
  cbn [List.length]. lia.
Qed.

(** ** Concatenation *)

Lemma tally_app (k : Color) (t1 t2 : str) :
  tally k (t1 ++ t2) = tally k t1 + tally k t2.
Proof. induction t1 as [|c t1 IH]; cbn [tally app]; lia. Qed.

Lemma ink_app (t1 t2 : str) : ink (t1 ++ t2) = ink t1 + ink t2.
Proof. induction t1 as [|c t1 IH]; cbn [ink app]; lia. Qed.

(** ** A total of zero *)

Lemma build_color_stats_zero_total (d : dict) (self : t) :
  sum (values d) = 0 ->
  build_color_stats d self
  = (match d with [] => Ok tt | _ :: _ => Raise ZeroDivisionError end,
     mk (enabled self) stats_header).
Proof.
  intros H. unfold build_color_stats, bind at 1, set_color_stats. rewrite H.
  destruct d as [|[k v] d]; [reflexivity|].
  cbn [keys map fst for_each]. unfold bind at 1, add_bar, bind at 1.
  unfold get_color_stats, bind at 1, lift. cbn [dict_get].
  rewrite str_eqb_refl. reflexivity.
Qed.

(** ** Texts without a painted character *)

Lemma plain_char (c : char) :
  ~ In c (lit "3&=+*#?") ->
  rendered c = [c]
  /\ hit Blue c = 0 /\ hit Red c = 0 /\ hit Green c = 0
  /\ hit Magenta c = 0 /\ hit Cyan c = 0.
Proof.
  intros H. unfold rendered, hit, bucket, classify.
  repeat (by_char c; [try (exfalso; apply H; simpl; tauto)|]);
    repeat split; reflexivity.
Qed.

Lemma plain_text (text : str) :
  Forall (fun c => ~ In c (lit "3&=+*#?")) text ->
  flat_map rendered text = text
  /\ histogram text = hist 0 0 0 0 0 (ink text).
Proof.
  intros H. rewrite <- (tally_total text). unfold histogram.
  induction H as [|c text Hc _ [IH1 IH2]]; [split; reflexivity|].
  destruct (plain_char c Hc) as (Hr & HB & HR & HG & HM & HC).
  injection IH2 as EB ER EG EM EC _.
  cbn [flat_map tally]. rewrite Hr, IH1, HB, HR, HG, HM, HC, EB, ER, EG, EM, EC.
  split; [reflexivity|]. unfold hist. repeat f_equal; lia.
Qed.

Lemma report_plain (n : Z) :
  0 < n ->
  report (hist 0 0 0 0 0 n)
  = stats_header
      ++ (BLUE ++ [NL] ++ RESET) ++ (RED ++ [NL] ++ RESET)
      ++ (GREEN ++ [NL] ++ RESET) ++ (MAGENTA ++ [NL] ++ RESET)
      ++ (CYAN ++ [NL] ++ RESET)
      ++ (RESET ++ [NL] ++ blocks 50 ++ RESET).
Proof.
  intros H. unfold report. rewrite sum_hist.
  replace (0 + 0 + 0 + 0 + 0 + n) with n by lia.
  unfold hist, report_entry. cbn [flat_map fst snd].
  rewrite (bar_zero n H), (bar_full n H). reflexivity.
Qed.

(** ** The colour codes under the scan *)

Lemma rendered_escape (k : Color) :
  k <> Reset ->
  exists rest,
    flat_map rendered (escape k)
    = (ESC :: chr "[" :: colored_string [chr "3"] BLUE) ++ rest.
Proof.
  intros H. destruct k; try (eexists; reflexivity). now destruct H.
Qed.

Lemma ink_escape (k : Color) : 0 < ink (escape k).
Proof. destruct k; reflexivity. Qed.

(* ================================================================== *)
(** * Further properties of the code *)



(** X2. Enabled, on a text made of spaces only, the empty text included,
    the call raises [ZeroDivisionError]; whatever report was stored is
    gone, [color_stats] holds the bare header. *)
Theorem X2_blank_text_raises (text old : str) :
  Forall (fun c => c = SPACE) text ->
  ascii_color_chars text (mk true old)
  = (Raise ZeroDivisionError, mk true stats_header).
Proof. intros H. now apply ascii_color_chars_blank, ink_zero_iff. Qed.

Lemma X2_blank_text_raises_witness :
  Forall (fun c => c = SPACE) (@nil char)
  /\ ascii_color_chars [] (mk true (lit "old"))
     = (Raise ZeroDivisionError, mk true stats_header).
Proof.
  split; [constructor|].
  apply (X2_blank_text_raises [] (lit "old")). constructor.
Defined.

(** X3. [ZeroDivisionError] is the only exception [ascii_color_chars] ever
    raises, and it raises it only when enabled on a text of spaces. *)
Theorem X3_only_zero_division (text : str) (self : t) (e : exn) :
  fst (ascii_color_chars text self) = Raise e ->
  e = ZeroDivisionError
  /\ enabled self = true
  /\ Forall (fun c => c = SPACE) text.
Proof.
  destruct self as [[|] old]; [|discriminate].
  destruct (Z.ltb_spec 0 (ink text)) as [H|H].
  - now rewrite ascii_color_chars_inked.
  - pose proof (ink_nonneg text).
    assert (ink text = 0) as Hz by lia.
    rewrite (ascii_color_chars_blank text old Hz). cbn [fst].
    intros [= <-]. repeat split. now apply ink_zero_iff.
Qed.

Lemma X3_only_zero_division_witness :
  fst (ascii_color_chars (lit "  ") (mk true [])) = Raise ZeroDivisionError
  /\ ZeroDivisionError = ZeroDivisionError
  /\ enabled (mk true []) = true
  /\ Forall (fun c => c = SPACE) (lit "  ").
Proof.
  assert (fst (ascii_color_chars (lit "  ") (mk true []))
          = Raise ZeroDivisionError) as H by reflexivity.
  split; [exact H|].
  exact (X3_only_zero_division (lit "  ") (mk true []) ZeroDivisionError H).
Defined.

(** X4. [build_color_stats] on a histogram whose total is zero: the empty
    histogram gives the bare header and no exception, since the loop has
    nothing to divide; any other raises [ZeroDivisionError] on its first
    key, with the bare header stored. *)
Theorem X4_zero_total (d : dict) (self : t) :
  sum (values d) = 0 ->
  build_color_stats d self
  = (match d with [] => Ok tt | _ :: _ => Raise ZeroDivisionError end,
     mk (enabled self) stats_header).
Proof. apply build_color_stats_zero_total. Qed.

Lemma X4_zero_total_witness :
  sum (values [(RED, 0); (GREEN, 0)]) = 0
  /\ build_color_stats [(RED, 0); (GREEN, 0)] init
     = (Raise ZeroDivisionError, mk false stats_header).
Proof.
  split; [reflexivity|].
  apply (X4_zero_total [(RED, 0); (GREEN, 0)] init). reflexivity.
Defined.

(** X5. The entries of the histogram count characters: Blue the '3's, Red
    the '&'s, Green the '='s, Magenta the '+'s and '*'s together, Cyan the
    '#'s and '?'s together. *)
Theorem X5_counts_by_character (text : str) :
  exists colored d,
    scan text ([], colors_used_init) = Ok (colored, d)
    /\ dict_get d BLUE = Ok (occurrences (chr "3") text)
    /\ dict_get d RED = Ok (occurrences (chr "&") text)
    /\ dict_get d GREEN = Ok (occurrences (chr "=") text)
    /\ dict_get d MAGENTA = Ok (occurrences (chr "+") text + occurrences (chr "*") text)
    /\ dict_get d CYAN = Ok (occurrences (chr "#") text + occurrences (chr "?") text).
Proof.
  exists (flat_map rendered text), (histogram text).
  split; [apply scan_init|].
  destruct (tally_by_char text) as (HB & HR & HG & HM & HC).
  rewrite <- HB, <- HR, <- HG, <- HM, <- HC. repeat split.
Qed.

(** X6. The painted text is longer than the input by nine characters, the
    five of a colour code and the four of the reset, for each character
    counted under a colour other than Reset. *)
Theorem X6_painted_length (text : str) :
  exists colored d z,
    scan text ([], colors_used_init) = Ok (colored, d)
    /\ dict_get d RESET = Ok z
    /\ Z.of_nat (List.length colored)
       = Z.of_nat (List.length text) + 9 * (sum (values d) - z).
Proof.
  exists (flat_map rendered text), (histogram text), (tally Reset text).
  split; [apply scan_init|]. split; [reflexivity|].
  rewrite length_painted, sum_histogram, <- tally_total. lia.
Qed.

(** X7. For a count within a positive total, [int(count/total*50)] is
    computed without an exception and lies between 0 and 50: rounding the
    quotient and the product never carries a bar past fifty blocks. *)
Theorem X7_bar_at_most_fifty (count total : Z) :
  0 <= count <= total -> 0 < total ->
  exists n, bar_length count total = Ok n /\ 0 <= n <= 50.
Proof.
  intros Hc Ht. exists (bar count total).
  split; [now apply bar_length_ok | now apply bar_bounds].
Qed.

Lemma X7_bar_at_most_fifty_witness :
  0 <= 29 <= 50 /\ 0 < 50
  /\ exists n, bar_length 29 50 = Ok n /\ 0 <= n <= 50.
Proof.
  assert (0 <= 29 <= 50) as Hc by lia. assert (0 < 50) as Ht by lia.
  split; [exact Hc|]. split; [exact Ht|].
  exact (X7_bar_at_most_fifty 29 50 Hc Ht).
Defined.

(** X8. The report stored by an enabled scan has between 116 and 416
    characters, however long the text: the header, six entries, and at
    most fifty blocks in each. *)
Theorem X8_report_size (text old : str) :
  (exists c, In c text /\ c <> SPACE) ->
  (116 <= List.length (color_stats (snd (ascii_color_chars text (mk true old))))
   <= 416)%nat.
Proof.
  intros H. apply ink_pos_iff in H.
  rewrite ascii_color_chars_inked by exact H. cbn [snd color_stats].
  now apply length_report_histogram.
Qed.

Lemma X8_report_size_witness :
  (exists c, In c (lit "3 a") /\ c <> SPACE)
  /\ (116 <= List.length (color_stats
                (snd (ascii_color_chars (lit "3 a") (mk true []))))
      <= 416)%nat.
Proof.
  assert (exists c, In c (lit "3 a") /\ c <> SPACE) as H.
  { exists (chr "3"). split; [now left | discriminate]. }
  split; [exact H | exact (X8_report_size (lit "3 a") [] H)].
Defined.

(** X9. Scanning a concatenation paints the two parts as they are painted
    alone and adds their counts, entry by entry. *)
Theorem X9_scan_concatenation (t1 t2 : str) :
  exists c1 d1 c2 d2 d,
    scan t1 ([], colors_used_init) = Ok (c1, d1)
    /\ scan t2 ([], colors_used_init) = Ok (c2, d2)
    /\ scan (t1 ++ t2) ([], colors_used_init) = Ok (c1 ++ c2, d)
    /\ keys d = keys d1 /\ keys d = keys d2
    /\ values d
       = List.map (fun p => fst p + snd p) (combine (values d1) (values d2)).
Proof.
  exists (flat_map rendered t1), (histogram t1),
    (flat_map rendered t2), (histogram t2), (histogram (t1 ++ t2)).
  rewrite !scan_init, flat_map_app.
  repeat (split; [reflexivity|]).
  unfold histogram. rewrite !tally_app. reflexivity.
Qed.

(** X10. Reports do not accumulate: after a scan that returned, a second
    scan ends as it would have without the first, in what it returns or
    raises and in what it stores. *)
Theorem X10_reports_do_not_accumulate (t1 t2 old : str) :
  (exists c, In c t1 /\ c <> SPACE) ->
  (ascii_color_chars t1 ;;; ascii_color_chars t2) (mk true old)
  = ascii_color_chars t2 (mk true old).
Proof.
  intros H. apply ink_pos_iff in H. unfold bind.
  rewrite (ascii_color_chars_inked t1 old H).
  destruct (Z.ltb_spec 0 (ink t2)) as [H2|H2].
  - now rewrite !ascii_color_chars_inked.
  - pose proof (ink_nonneg t2).
    rewrite !ascii_color_chars_blank by lia. reflexivity.
Qed.

Lemma X10_reports_do_not_accumulate_witness :
  (exists c, In c (lit "3 a") /\ c <> SPACE)
  /\ (ascii_color_chars (lit "3 a") ;;; ascii_color_chars (lit "=")) (mk true [])
     = ascii_color_chars (lit "=") (mk true []).
Proof.
  assert (exists c, In c (lit "3 a") /\ c <> SPACE) as H.
  { exists (chr "3"). split; [now left | discriminate]. }
  split; [exact H|].
  exact (X10_reports_do_not_accumulate (lit "3 a") (lit "=") [] H).
Defined.

(** X11. A text with none of the seven painted characters and with a
    character other than the space is returned as it is by the enabled
    scan; its report has five empty bars and a Reset bar of fifty blocks. *)
Theorem X11_plain_text (text old : str) :
  Forall (fun c => ~ In c (lit "3&=+*#?")) text ->
  (exists c, In c text /\ c <> SPACE) ->
  ascii_color_chars text (mk true old)
  = (Ok text,
     mk true
       (stats_header
          ++ (BLUE ++ [NL] ++ RESET) ++ (RED ++ [NL] ++ RESET)
          ++ (GREEN ++ [NL] ++ RESET) ++ (MAGENTA ++ [NL] ++ RESET)
          ++ (CYAN ++ [NL] ++ RESET)
          ++ (RESET ++ [NL] ++ List.repeat FULL_BLOCK 50 ++ RESET))).
Proof.
  intros Hp H. apply ink_pos_iff in H.
  rewrite (ascii_color_chars_inked text old H).
  destruct (plain_text text Hp) as [-> ->].
  now rewrite (report_plain (ink text) H).
Qed.

Lemma X11_plain_text_witness :
  Forall (fun c => ~ In c (lit "3&=+*#?")) (lit "a b")
  /\ (exists c, In c (lit "a b") /\ c <> SPACE)
  /\ fst (ascii_color_chars (lit "a b") (mk true [])) = Ok (lit "a b").
Proof.
  assert (Forall (fun c => ~ In c (lit "3&=+*#?")) (lit "a b")) as Hp.
  { repeat (constructor; [simpl; intuition discriminate|]). constructor. }
  assert (exists c, In c (lit "a b") /\ c <> SPACE) as H.
  { exists (chr "a"). split; [now left | discriminate]. }
  split; [exact Hp|]. split; [exact H|].
  exact (f_equal fst (X11_plain_text (lit "a b") [] Hp H)).
Defined.

(** X12. Neither [ascii_color_chars] nor [build_color_stats] changes the
    flag, whether the call returns or raises. *)
Theorem X12_flag_kept (text : str) (d : dict) (self : t) :
  enabled (snd (ascii_color_chars text self)) = enabled self
  /\ enabled (snd (build_color_stats d self)) = enabled self.
Proof.
  split; [|apply build_color_stats_enabled].
  unfold ascii_color_chars, bind at 1, get_enabled.
  destruct (enabled self) eqn:E; [|exact E].
  unfold bind at 1, lift. rewrite scan_init. cbn [fst snd]. unfold bind.
  pose proof (build_color_stats_enabled (histogram text) self) as Hb.
  destruct (build_color_stats (histogram text) self) as [[u|e] self'];
    unfold ret; cbn [snd] in *; congruence.
Qed.

(** X13. The scan does not spare the module's own colour codes: each but
    the reset holds a '3'.  The enabled scan of a text wrapped by
    [colored_string] in such a colour returns a string that begins with
    ESC, the bracket, and the '3' wrapped in Blue. *)
Theorem X13_scan_of_colored_string (text old : str) (k : Color) :
  k <> Reset ->
  exists out self',
    ascii_color_chars (colored_string text (escape k)) (mk true old)
    = (Ok out, self')
    /\ firstn 12 out = ESC :: chr "[" :: colored_string [chr "3"] BLUE.
Proof.
  intros H. eexists _, _. split.
  - apply ascii_color_chars_inked. unfold colored_string.
    rewrite !ink_app. pose proof (ink_escape k). pose proof (ink_nonneg text).
    pose proof (ink_nonneg RESET). lia.
  - unfold colored_string. rewrite !flat_map_app.
    destruct (rendered_escape k H) as [rest ->].
    rewrite <- !app_assoc. reflexivity.
Qed.

Lemma X13_scan_of_colored_string_witness :
  Yellow <> Reset
  /\ exists out self',
       ascii_color_chars (colored_string (lit "bad") (escape Yellow))
         (mk true [])
       = (Ok out, self')
       /\ firstn 12 out = ESC :: chr "[" :: colored_string [chr "3"] BLUE.
Proof.
  assert (Yellow <> Reset) as H by discriminate.
  split; [exact H|].
  exact (X13_scan_of_colored_string (lit "bad") [] Yellow H).
Defined.

(** X14. The two ends of the scale are exact for every positive total: a
    count of zero gives an empty bar, a count equal to the total gives
    fifty blocks, with no loss to rounding. *)
Theorem X14_bar_endpoints (total : Z) :
  0 < total ->
  bar_length 0 total = Ok 0 /\ bar_length total total = Ok 50.
Proof.
  intros H. rewrite !bar_length_ok by lia.
  now rewrite (bar_zero total H), (bar_full total H).
Qed.

Lemma X14_bar_endpoints_witness :
  0 < 7 /\ bar_length 0 7 = Ok 0 /\ bar_length 7 7 = Ok 50.
Proof.
  assert (0 < 7) as H by lia.
  split; [exact H | exact (X14_bar_endpoints 7 H)].
Defined.
